(** * PHAR-MAA Twilio gateway: the webhook relay of [app.py]

    The two webhook handlers [whatsapp_webhook] and [sms_webhook] are
    embedded as functions in a small monad that threads what a handler
    can do besides returning: write log records, issue the outbound
    call, and raise.  The downstream service, the parsed form and the
    process-wide [LOCAL_BACKEND_URL] are inputs. *)

From Stdlib Require Import ZArith Ascii String DecimalString.
From stdpp Require Import gmap strings list fin_maps.

Set Warnings "-register-all".

Local Open Scope Z_scope.
Local Open Scope string_scope.

(** ** Python values *)

(** The objects [response.json()] can return, and the values of the
    payload dict.  A str is held as its UTF-8 bytes, a lone surrogate
    (which [json] accepts in an escape) as the three bytes ED A0..BF
    80..BF of generalised UTF-8.  A float is held as the text [repr]
    gives it (1.5, 1e+16, inf, nan), which tells floats apart. *)
Inductive json : Type :=
  | JNull
  | JBool (b : bool)
  | JInt (n : Z)
  | JFloat (text : string)
  | JStr (s : string)
  | JList (l : list json)
  | JDict (d : gmap string json).

(** [str(n)] for an int. *)
Definition str_int (n : Z) : string := NilZero.string_of_int (Z.to_int n).

(** [bool(s)] for a str. *)
Definition str_truthy (s : string) : bool :=
  match s with
  | EmptyString => false
  | String _ _ => true
  end.

(** [bool(x)] for a float: false for 0.0 and -0.0 only. *)
Definition float_truthy (text : string) : bool :=
  negb (String.eqb text "0.0" || String.eqb text "-0.0").

(** [bool(v)]: the test of [if reply_message:]. *)
Definition truthy (v : json) : bool :=
  match v with
  | JNull => false
  | JBool b => b
  | JInt n => negb (Z.eqb n 0)
  | JFloat text => float_truthy text
  | JStr s => str_truthy s
  | JList l => match l with [] => false | _ :: _ => true end
  | JDict d => negb (Nat.eqb (size d) 0)
  end.

(** [type(v).__name__], as it appears in an AttributeError. *)
Definition type_name (v : json) : string :=
  match v with
  | JNull => "NoneType"
  | JBool _ => "bool"
  | JInt _ => "int"
  | JFloat _ => "float"
  | JStr _ => "str"
  | JList _ => "list"
  | JDict _ => "dict"
  end.

(** ** Exceptions

    The subclasses of [Exception] a handler can meet, so that
    [except Exception] catches every value of this type.  [HTTPException] is
    the one the handlers raise themselves; [UnicodeEncodeError] comes out
    of the response constructor; the others come out of the form
    parser, of [client.post] and of [response.json()]. *)
Inductive exn : Type :=
  | HTTPException (status_code : Z) (detail : string)
  | TimeoutException (msg : string)
  | ConnectError (msg : string)
  | JSONDecodeError (msg : string)
  | AttributeError (msg : string)
  | UnicodeEncodeError (msg : string)
  | OtherException (msg : string).

(** [str(e)], as interpolated in the error log line. *)
Definition exc_str (e : exn) : string :=
  match e with
  | HTTPException status_code detail => str_int status_code +:+ ": " +:+ detail
  | TimeoutException msg
  | ConnectError msg
  | JSONDecodeError msg
  | AttributeError msg
  | UnicodeEncodeError msg
  | OtherException msg => msg
  end.

(** A call either returns or raises. *)
Inductive outcome (A : Type) : Type :=
  | Returns (a : A)
  | Raises (e : exn).
Arguments Returns {A} a.
Arguments Raises {A} e.

(** ** Requests, responses, the outbound call *)

(** The inbound request: [await request.form()] raises or yields the
    form, a mapping from field names to their text, as a URL-encoded
    body gives it.  The parser decodes percent escapes with replacement,
    so a field holds no lone surrogate. *)
Record Request : Type := {
  form : outcome (gmap string string)
}.

(** A [PlainTextResponse] once built: its body text, its media type and
    its status code. *)
Record PlainTextResponse : Type := {
  content : string;
  media_type : string;
  status : Z
}.

(** What [client.post] hands back. *)
Record BackendResponse : Type := {
  status_code : Z;
  json_body : outcome json
}.

(** One outbound call: [client.post(url, json=payload)] on a client
    built with [timeout=30.0]. *)
Record call : Type := {
  call_url : string;
  call_json : gmap string json;
  call_timeout : Z
}.

Inductive level : Type := INFO | WARNING | ERROR.

Record log_record : Type := {
  levelname : level;
  message : string
}.

(** What a handler leaves behind: the log records written and the
    outbound calls issued, oldest first. *)
Record trace : Type := {
  log : list log_record;
  calls : list call
}.

Definition no_trace : trace := {| log := []; calls := [] |}.

(** ** The handler monad *)

Definition M (A : Type) : Type := trace -> outcome A * trace.

Global Instance M_ret : MRet M := fun A a t => (Returns a, t).

Global Instance M_bind : MBind M := fun A B f m t =>
  match m t with
  | (Returns a, t') => f a t'
  | (Raises e, t') => (Raises e, t')
  end.

Definition raise {A : Type} (e : exn) : M A := fun t => (Raises e, t).

(** The result of a call that returns or raises, in the monad. *)
Definition lift {A : Type} (o : outcome A) : M A := fun t => (o, t).

(** [try: body except Exception as e: handler e]. *)
Definition try_except {A : Type} (body : M A) (handler : exn -> M A) : M A :=
  fun t =>
    match body t with
    | (Returns a, t') => (Returns a, t')
    | (Raises e, t') => handler e t'
    end.

Definition emit (lv : level) (msg : string) : M unit := fun t =>
  (Returns tt, {| log := log t ++ [{| levelname := lv; message := msg |}];
                  calls := calls t |}).

Definition logger_info : string -> M unit := emit INFO.
Definition logger_error : string -> M unit := emit ERROR.

(** ** Encoding a body as UTF-8 *)

Definition byte_of (a : ascii) : Z := Z.of_N (N_of_ascii a).

(** A continuation byte, 80..BF. *)
Definition is_continuation (a : ascii) : bool :=
  Z.leb 128 (byte_of a) && Z.ltb (byte_of a) 192.

(** The three bytes of a surrogate, ED A0..BF 80..BF. *)
Definition surrogate_bytes (a b c : ascii) : bool :=
  Z.eqb (byte_of a) 237 && (Z.leb 160 (byte_of b) && Z.ltb (byte_of b) 192)
  && is_continuation c.

(** The code point these three bytes hold. *)
Definition surrogate_code (b c : ascii) : Z :=
  53248 + (byte_of b - 128) * 64 + (byte_of c - 128).

(** Whether a str holds a lone surrogate: [s.encode("utf-8")] raises
    exactly then. *)
Fixpoint has_surrogate (s : string) : bool :=
  match s with
  | String a ((String b (String c _)) as rest) =>
      surrogate_bytes a b c || has_surrogate rest
  | String _ rest => has_surrogate rest
  | EmptyString => false
  end.

(** The first surrogate of a str: its index, counted in characters from
    [pos], its code point, and the str after it. *)
Fixpoint first_surrogate (s : string) (pos : nat) : option (nat * Z * string) :=
  match s with
  | String a rest =>
      match rest with
      | String b (String c after) =>
          if surrogate_bytes a b c then Some (pos, surrogate_code b c, after)
          else first_surrogate rest (if is_continuation a then pos else S pos)
      | _ => first_surrogate rest (if is_continuation a then pos else S pos)
      end
  | EmptyString => None
  end.

(** How many surrogates a str starts with. *)
Fixpoint surrogate_run (s : string) : nat :=
  match s with
  | String a (String b (String c after)) =>
      if surrogate_bytes a b c then S (surrogate_run after) else 0%nat
  | _ => 0%nat
  end.

Definition hex_digit (d : Z) : string :=
  match d with
  | 10 => "a" | 11 => "b" | 12 => "c" | 13 => "d" | 14 => "e" | 15 => "f"
  | _ => str_int d
  end.

(** [%04x] of a code point below 65536. *)
Definition hex4 (n : Z) : string :=
  hex_digit (n / 4096) +:+ hex_digit (n / 256 mod 16)
  +:+ hex_digit (n / 16 mod 16) +:+ hex_digit (n mod 16).

(** [str(e)] of the UnicodeEncodeError that [s.encode("utf-8")] raises:
    it names the first run of surrogates. *)
Definition surrogates_not_allowed (s : string) : string :=
  match first_surrogate s 0 with
  | Some (start, code, after) =>
      match surrogate_run after with
      | O =>
          "'utf-8' codec can't encode character '\u" +:+ hex4 code
          +:+ "' in position " +:+ str_int (Z.of_nat start)
          +:+ ": surrogates not allowed"
      | S more =>
          "'utf-8' codec can't encode characters in position "
          +:+ str_int (Z.of_nat start) +:+ "-"
          +:+ str_int (Z.of_nat (start + S more))
          +:+ ": surrogates not allowed"
      end
  | None => ""
  end.

(** [PlainTextResponse(content=..., media_type=...)]: the constructor
    encodes the body as UTF-8, so it raises on a lone surrogate; the
    status code is the constructor's default. *)
Definition plain_text_response (content media_type : string) : M PlainTextResponse :=
  if has_surrogate content
  then raise (UnicodeEncodeError (surrogates_not_allowed content))
  else mret {| content := content; media_type := media_type; status := 200 |}.

(** [d.get(key, dflt)] on whatever [response.json()] returned: only a
    dict has the method. *)
Definition py_get (v : json) (key : string) (dflt : json) : M json :=
  match v with
  | JDict d => mret (default dflt (d !! key))
  | _ => raise (AttributeError
           ("'" +:+ type_name v +:+ "' object has no attribute 'get'"))
  end.

(** The markup of the two replies. *)
Definition dq : string := String "034"%char EmptyString.

Definition xml_decl : string :=
  "<?xml version=" +:+ dq +:+ "1.0" +:+ dq +:+ " encoding=" +:+ dq +:+ "UTF-8" +:+ dq +:+ "?>".

Definition empty_twiml : string := xml_decl +:+ "<Response></Response>".

Definition message_twiml (text : string) : string :=
  xml_decl +:+ "<Response><Message>" +:+ text +:+ "</Message></Response>".

(** The two POST routes, [/twilio/whatsapp] and [/twilio/sms]. *)
Inductive route : Type := twilio_whatsapp | twilio_sms.

(** ** Vocabulary of the statements *)

(** The name a handler uses for itself in its log lines, and the value
    the claims expect in the envelope's channel field. *)
Definition log_name (r : route) : string :=
  match r with
  | twilio_whatsapp => "WhatsApp"
  | twilio_sms => "SMS"
  end.

Definition channel_name (r : route) : string :=
  match r with
  | twilio_whatsapp => "whatsapp"
  | twilio_sms => "sms"
  end.

(** The response field of a downstream reply, when the reply is a JSON
    object that has one. *)
Definition response_field (j : json) : option json :=
  match j with
  | JDict d => d !! "response"
  | _ => None
  end.

(** What the handlers answer with. *)
Definition empty_ack : PlainTextResponse :=
  {| content := empty_twiml; media_type := "application/xml"; status := 200 |}.

(** The log line written on receipt. *)
Definition receipt_line (r : route) (sender : string) : log_record :=
  {| levelname := INFO; message := log_name r +:+ " message from " +:+ sender |}.

(** A list or a dict, as opposed to a string, a number, a boolean or
    null. *)
Definition is_container (v : json) : bool :=
  match v with
  | JList _ | JDict _ => true
  | JNull | JBool _ | JInt _ | JFloat _ | JStr _ => false
  end.

(** The records of a log that report a failure: those at level ERROR. *)
Definition is_error (rec : log_record) : bool :=
  match levelname rec with
  | ERROR => true
  | INFO | WARNING => false
  end.

Definition error_records (l : list log_record) : list log_record :=
  List.filter is_error l.

(** The HTTP success class, 2xx. *)
Definition success_status (code : Z) : bool := Z.leb 200 code && Z.ltb code 300.

(** ** Sample inputs *)

Module Demo.

Definition repr : json -> string := fun _ => "?".

Definition url : option string := Some "http://localhost:8000".

Definition sender : string := "whatsapp:+15550100".

Definition fields : gmap string string :=
  <["MediaUrl0" := "https://example.org/a.jpg"]>
  (<["Body" := "hi"]> (<["From" := sender]> ∅)).

Definition req : Request := {| form := Returns fields |}.

Definition no_sender : gmap string string := <["Body" := "hi"]> ∅.

Definition reply (code : Z) (j : json) : BackendResponse :=
  {| status_code := code; json_body := Returns j |}.

Definition hello : json := JDict (<["response" := JStr "Hello"]> ∅).

(** A downstream service that treats every call alike. *)
Definition answering (o : outcome BackendResponse) : call -> outcome BackendResponse :=
  fun _ => o.

Definition created : call -> outcome BackendResponse :=
  answering (Returns (reply 201 hello)).

Definition timing_out : call -> outcome BackendResponse :=
  answering (Raises (TimeoutException "timed out")).

End Demo.

(** [os.getenv(name)] on the environment of the process. *)
Definition os_getenv (environ : gmap string string) (name : string) : option string :=
  environ !! name.

(** More sample inputs. *)
Module Sample.

(** The form of [Demo.fields] with fields the handlers do not read. *)
Definition fields_more : gmap string string :=
  <["To" := "whatsapp:+15550199"]> (<["MediaUrl1" := "https://example.org/b.jpg"]> Demo.fields).

Definition number : json := JDict (<["response" := JInt 42]> ∅).

Definition null : json := JDict (<["response" := JNull]> ∅).

Definition not_found : call -> outcome BackendResponse :=
  Demo.answering (Returns (Demo.reply 404 Demo.hello)).

Definition refusing : call -> outcome BackendResponse :=
  Demo.answering (Raises (ConnectError "All connection attempts failed")).

Definition garbled : call -> outcome BackendResponse :=
  Demo.answering
    (Returns {| status_code := 200;
                json_body := Raises (JSONDecodeError "Expecting value") |}).

(** The str of one lone surrogate, U+D800. *)
Definition lone_surrogate : string :=
  String "237"%char (String "160"%char (String "128"%char EmptyString)).

Definition surrogate_reply : json :=
  JDict (<["response" := JStr lone_surrogate]> ∅).

Definition failing : call -> outcome BackendResponse :=
  Demo.answering (Returns (Demo.reply 500 Demo.hello)).

Definition empty_object : call -> outcome BackendResponse :=
  Demo.answering (Returns (Demo.reply 200 (JDict ∅))).

Definition hello_reply : PlainTextResponse :=
  {| content := message_twiml "Hello"; media_type := "application/xml";
     status := 200 |}.

Definition broken_form : Request :=
  {| form := Raises (OtherException "bad form") |}.

End Sample.

(** ** The handlers *)

Section Gateway.

(** [repr] of a list or a dict, whose text depends on the Unicode
    tables through the [repr] of the strings inside. *)
Variable py_repr : json -> string.

(** The module global read from the environment at start-up: [None]
    when the variable is unset. *)
Variable LOCAL_BACKEND_URL : option string.

(** The downstream service, as seen through [client.post]. *)
Variable backend : call -> outcome BackendResponse.

(** [f"{v}"]. *)
Definition py_str (v : json) : string :=
  match v with
  | JStr s => s
  | JNull => "None"
  | JBool true => "True"
  | JBool false => "False"
  | JInt n => str_int n
  | JFloat text => text
  | JList _ | JDict _ => py_repr v
  end.

(** [bool(LOCAL_BACKEND_URL)] and [f"{LOCAL_BACKEND_URL}"]. *)
Definition backend_url_set : bool :=
  match LOCAL_BACKEND_URL with
  | Some url => str_truthy url
  | None => false
  end.

Definition backend_url_str : string :=
  match LOCAL_BACKEND_URL with
  | Some url => url
  | None => "None"
  end.

(** [async with httpx.AsyncClient(timeout=30.0) as client:
     await client.post(url, json=payload)]: the call is recorded, then
    the downstream service answers or the call raises. *)
Definition client_post (url : string) (payload : gmap string json) : M BackendResponse :=
  fun t =>
    let c := {| call_url := url; call_json := payload; call_timeout := 30 |} in
    (backend c, {| log := log t; calls := calls t ++ [c] |}).

Definition whatsapp_webhook (request : Request) : M PlainTextResponse :=
  try_except
    (form_data ← lift (form request);
     let sender := default "" (form_data !! "From") in
     let body := default "" (form_data !! "Body") in
     let media_url := form_data !! "MediaUrl0" in
     logger_info ("WhatsApp message from " +:+ sender);;
     (if negb (str_truthy sender)
      then raise (HTTPException 400 "Missing sender")
      else mret tt);;
     let payload : gmap string json :=
       <["media_url" := from_option JStr JNull media_url]>
       (<["channel" := JStr "whatsapp"]>
       (<["content" := JStr (if str_truthy body then body else "")]>
       (<["sender" := JStr sender]> ∅))) in
     returned ←
       (if backend_url_set then
          response ← client_post (backend_url_str +:+ "/api/messages/ingest") payload;
          logger_info ("Forwarded to backend: " +:+ str_int (status_code response));;
          if Z.eqb (status_code response) 200 then
            backend_data ← lift (json_body response);
            reply_message ← py_get backend_data "response" (JStr "");
            if truthy reply_message then
              reply ← plain_text_response
                         (message_twiml (py_str reply_message))
                         "application/xml";
              mret (Some reply)
            else mret None
          else mret None
        else mret None);
     match returned with
     | Some r => mret r
     | None => plain_text_response empty_twiml "application/xml"
     end)
    (fun e =>
       logger_error ("WhatsApp webhook error: " +:+ exc_str e);;
       plain_text_response empty_twiml "application/xml").

Definition sms_webhook (request : Request) : M PlainTextResponse :=
  try_except
    (form_data ← lift (form request);
     let sender := default "" (form_data !! "From") in
     let body := default "" (form_data !! "Body") in
     logger_info ("SMS message from " +:+ sender);;
     (if negb (str_truthy sender)
      then raise (HTTPException 400 "Missing sender")
      else mret tt);;
     let payload : gmap string json :=
       <["channel" := JStr "sms"]>
       (<["content" := JStr (if str_truthy body then body else "")]>
       (<["sender" := JStr sender]> ∅)) in
     returned ←
       (if backend_url_set then
          response ← client_post (backend_url_str +:+ "/api/messages/ingest") payload;
          logger_info ("Forwarded to backend: " +:+ str_int (status_code response));;
          if Z.eqb (status_code response) 200 then
            backend_data ← lift (json_body response);
            reply_message ← py_get backend_data "response" (JStr "");
            if truthy reply_message then
              reply ← plain_text_response
                         (message_twiml (py_str reply_message))
                         "application/xml";
              mret (Some reply)
            else mret None
          else mret None
        else mret None);
     match returned with
     | Some r => mret r
     | None => plain_text_response empty_twiml "application/xml"
     end)
    (fun e =>
       logger_error ("SMS webhook error: " +:+ exc_str e);;
       plain_text_response empty_twiml "application/xml").

(** The POST routes registered on [app]. *)
Definition app_post (r : route) : Request -> M PlainTextResponse :=
  match r with
  | twilio_whatsapp => whatsapp_webhook
  | twilio_sms => sms_webhook
  end.

(** One request served from a clean slate: what the caller gets, and
    what the handler left behind. *)
Definition response_of (r : route) (req : Request) : outcome PlainTextResponse :=
  fst (app_post r req no_trace).

Definition trace_of (r : route) (req : Request) : trace :=
  snd (app_post r req no_trace).

(** ** The probes and the start-up code *)

(** [root()]: the JSON object of [GET /]. *)
Definition root : gmap string json :=
  <["backend_configured" :=
      JBool (match LOCAL_BACKEND_URL with Some _ => true | None => false end)]>
  (<["status" := JStr "running"]>
  (<["service" := JStr "PHAR-MAA Twilio Gateway"]> ∅)).

(** [health()]: the JSON object of [GET /health]. *)
Definition health : gmap string json := <["status" := JStr "healthy"]> ∅.

(** The module body after [LOCAL_BACKEND_URL] is read: the records it
    writes to the log while the module is loaded. *)
Definition startup_log : list log_record :=
  if negb backend_url_set
  then [ {| levelname := WARNING;
            message := "LOCAL_BACKEND_URL not set - gateway will not forward messages" |} ]
  else [].

(** ** Properties *)

Lemma str_truthy_true (s : string) : str_truthy s = true <-> s <> "".
Proof. destruct s; simpl; split; intros; congruence. Qed.

Lemma str_truthy_false (s : string) : str_truthy s = false <-> s = "".
Proof. destruct s; simpl; split; intros; congruence. Qed.

(** A [try] whose [except] clause always returns, always returns. *)
Lemma try_except_returns {A : Type} (body : M A) (handler : exn -> M A) :
  (forall e t, exists a t', handler e t = (Returns a, t')) ->
  forall t, exists a t', try_except body handler t = (Returns a, t').
Proof.
  intros Hhandler t. unfold try_except.
  destruct (body t) as [[a | e] t'].
  - exists a, t'. reflexivity.
  - apply Hhandler.
Qed.

(** A byte other than ED starts no surrogate. *)
Lemma has_surrogate_skip (a : ascii) (rest : string) :
  Z.eqb (byte_of a) 237 = false ->
  has_surrogate (String a rest) = has_surrogate rest.
Proof.
  intros Hbyte. destruct rest as [| b [| c rest]]; try reflexivity.
  cbn [has_surrogate]. unfold surrogate_bytes. rewrite Hbyte. reflexivity.
Qed.

Lemma append_cons (a : ascii) (s t : string) :
  String a s +:+ t = String a (s +:+ t).
Proof. reflexivity. Qed.

Lemma append_nil (t : string) : "" +:+ t = t.
Proof. reflexivity. Qed.

Lemma has_surrogate_three (a b c : ascii) (rest : string) :
  has_surrogate (String a (String b (String c rest))) =
    surrogate_bytes a b c || has_surrogate (String b (String c rest)).
Proof. reflexivity. Qed.

(** Text appended after a str adds no surrogate across the seam when it
    starts with a byte that continues nothing. *)
Lemma has_surrogate_app (T : string) (x : ascii) (rest : string) :
  is_continuation x = false ->
  has_surrogate (T +:+ String x rest) =
    has_surrogate T || has_surrogate (String x rest).
Proof.
  intros Hx.
  assert (Hsecond : forall a c, surrogate_bytes a x c = false).
  { intros a c. unfold surrogate_bytes, is_continuation in *.
    destruct (Z.eqb (byte_of a) 237); [| reflexivity]. cbn [andb].
    apply andb_false_iff. left.
    apply andb_false_iff in Hx. apply andb_false_iff.
    destruct Hx as [Hx | Hx]; [left | right].
    - apply Z.leb_gt in Hx. apply Z.leb_gt. lia.
    - exact Hx. }
  assert (Hthird : forall a b, surrogate_bytes a b x = false).
  { intros a b. unfold surrogate_bytes. rewrite Hx. apply andb_false_r. }
  induction T as [| a T IH]; [reflexivity |].
  destruct T as [| b [| c T]]; rewrite ?append_cons, ?append_nil in *.
  - destruct rest as [| y rest]; [reflexivity |].
    rewrite has_surrogate_three, Hsecond. reflexivity.
  - rewrite has_surrogate_three, Hthird. cbn [orb]. exact IH.
  - rewrite !(has_surrogate_three a), IH, orb_assoc. reflexivity.
Qed.

Lemma empty_twiml_encodable : has_surrogate empty_twiml = false.
Proof. reflexivity. Qed.

(** The markup around a text is plain ASCII: the body encodes exactly
    when the text does. *)
Lemma has_surrogate_message (T : string) :
  has_surrogate (message_twiml T) = has_surrogate T.
Proof.
  unfold message_twiml, xml_decl, dq.
  rewrite ?append_cons, ?append_nil.
  repeat (rewrite has_surrogate_skip by reflexivity;
          rewrite ?append_cons, ?append_nil).
  rewrite has_surrogate_app by reflexivity.
  apply orb_false_r.
Qed.

Ltac run_handler :=
  cbv beta iota zeta delta
    [response_of trace_of app_post whatsapp_webhook sms_webhook
     try_except mbind M_bind mret M_ret plain_text_response
     lift raise logger_info logger_error emit client_post py_get
     no_trace log calls default from_option id fst snd] in *;
  rewrite ?empty_twiml_encodable in *.

Ltac tidy :=
  cbv beta iota zeta in *;
  cbn [str_truthy truthy negb response_field app] in *.

Ltac split_on x := destruct x eqn:?; tidy.

(** One case split on the next thing a handler branches on. *)
Ltac handler_case :=
  match goal with
  | H : ?x = _ |- context [match ?x with _ => _ end] => rewrite H in *; tidy
  | |- context [form ?req] => split_on (form req)
  | |- context [?fm !! "From"] => split_on (fm !! "From")
  | |- context [str_truthy ?s] => is_var s; split_on s
  | |- context [backend_url_set] => split_on backend_url_set
  | |- context [match ?b ?c with Returns _ => _ | Raises _ => _ end] =>
      is_var b; split_on (b c)
  | |- context [Z.eqb (status_code ?a) 200] => split_on (Z.eqb (status_code a) 200)
  | |- context [json_body ?a] => split_on (json_body a)
  | |- context [match ?j with JNull => _ | _ => _ end] => is_var j; split_on j
  | |- context [truthy ?v] => split_on (truthy v)
  | |- context [has_surrogate (message_twiml ?s)] =>
      split_on (has_surrogate (message_twiml s))
  end.

Ltac handler_cases := run_handler; tidy; repeat handler_case.

(** Every run of either handler ends in a response, whose status is
    200 and whose media type is application/xml. *)
Lemma handler_answers (r : route) (req : Request) :
  exists resp, response_of r req = Returns resp /\
    status resp = 200 /\ media_type resp = "application/xml".
Proof.
  destruct r; handler_cases; eexists; (split; [reflexivity | split; reflexivity]).
Qed.

(** C1: a request whose form has a non-empty From is answered with
    status 200 and media type application/xml, whatever the downstream
    base URL and whatever the downstream service does. *)
Theorem sender_present_status_200_xml
    (r : route) (req : Request) (fm : gmap string string) (sender : string) :
  form req = Returns fm -> fm !! "From" = Some sender -> sender <> "" ->
  exists resp, response_of r req = Returns resp /\
    status resp = 200 /\ media_type resp = "application/xml".
Proof. intros _ _ _. apply handler_answers. Qed.

(** C9: for every request and every downstream behaviour, either
    handler returns a response; nothing is raised to the caller. *)
Theorem handler_never_raises (r : route) (req : Request) :
  exists resp, response_of r req = Returns resp.
Proof.
  unfold response_of.
  assert (H : exists resp t, app_post r req no_trace = (Returns resp, t)).
  { destruct r; apply try_except_returns; intros e t;
      eexists _, _; reflexivity. }
  destruct H as (resp & t & ->). exists resp. reflexivity.
Qed.

(** The run issued exactly the call [c]: name it in every branch. *)
Ltac the_call H :=
  first [ discriminate H
        | injection H as H; subst;
          repeat match goal with
          | H1 : ?b ?c = Returns ?x, H2 : ?b ?c = Returns ?y |- _ =>
              assert (x = y) by congruence; subst x; clear H1
          end ].

(** C2 (amended): with a non-empty sender, if the outbound call returns
    status 200 and the reply's response field is a non-empty string T
    that holds no lone surrogate, so that the body encodes as UTF-8, the
    answer's body is the XML declaration followed by
    <Response><Message>T</Message></Response>, T verbatim. *)
Theorem reply_text_rendered_verbatim
    (r : route) (req : Request) (fm : gmap string string) (sender : string)
    (c : call) (resp : BackendResponse) (j : json) (T : string) :
  form req = Returns fm -> fm !! "From" = Some sender -> sender <> "" ->
  calls (trace_of r req) = [c] ->
  backend c = Returns resp -> status_code resp = 200 ->
  json_body resp = Returns j ->
  response_field j = Some (JStr T) -> T <> "" ->
  has_surrogate T = false ->
  response_of r req =
    Returns {| content := xml_decl +:+ "<Response><Message>" +:+ T
                            +:+ "</Message></Response>";
               media_type := "application/xml";
               status := 200 |}.
Proof.
  intros Hform Hfrom Hne Hcalls Hback Hcode Hjson Hfield HT Hencodes.
  revert Hcalls.
  destruct r; handler_cases; intros Hcalls; the_call Hcalls.
  all: try congruence.
  all: try (rewrite Hcode in *; discriminate).
  all: cbn [response_field] in Hfield; rewrite Hfield in *; tidy;
    cbn [py_str] in *; rewrite ?has_surrogate_message in *.
  all: first [ reflexivity
             | congruence
             | match goal with
               | H : str_truthy _ = false |- _ =>
                   apply str_truthy_false in H; congruence
               end ].
Qed.

(** C3: with a non-empty sender, if the outbound call returns status 200
    and the JSON reply has an empty response field or none at all, the
    answer is the empty acknowledgment. *)
Theorem empty_reply_acknowledged
    (r : route) (req : Request) (fm : gmap string string) (sender : string)
    (c : call) (resp : BackendResponse) (j : json) :
  form req = Returns fm -> fm !! "From" = Some sender -> sender <> "" ->
  calls (trace_of r req) = [c] ->
  backend c = Returns resp -> status_code resp = 200 ->
  json_body resp = Returns j ->
  response_field j = Some (JStr "") \/ response_field j = None ->
  response_of r req = Returns empty_ack /\
  content empty_ack = xml_decl +:+ "<Response></Response>".
Proof.
  intros Hform Hfrom Hne Hcalls Hback Hcode Hjson Hfield.
  split; [| reflexivity].
  revert Hcalls.
  destruct r; handler_cases; intros Hcalls; the_call Hcalls.
  all: try congruence.
  all: try reflexivity.
  all: exfalso; destruct Hfield as [Hfield | Hfield];
    cbn [response_field] in Hfield; rewrite Hfield in *; tidy; discriminate.
Qed.

(** C4 (amended): with a non-empty sender, if the outbound call times
    out, the answer is the empty acknowledgment and the handler's logger
    writes exactly one failure record, the error line of the except
    clause, after the receipt line; if the call returns status 500, the
    answer is the empty acknowledgment and the handler's logger writes
    no failure record, only the line that reports the status, as for
    every status. *)
Theorem timeout_logged_once_status_500_routine
    (r : route) (req : Request) (fm : gmap string string) (sender : string)
    (c : call) :
  form req = Returns fm -> fm !! "From" = Some sender -> sender <> "" ->
  calls (trace_of r req) = [c] ->
  (forall msg, backend c = Raises (TimeoutException msg) ->
     response_of r req = Returns empty_ack /\
     log (trace_of r req) =
       [ receipt_line r sender;
         {| levelname := ERROR;
            message := log_name r +:+ " webhook error: " +:+ msg |} ] /\
     length (error_records (log (trace_of r req))) = 1%nat) /\
  (forall resp, backend c = Returns resp -> status_code resp = 500 ->
     response_of r req = Returns empty_ack /\
     log (trace_of r req) =
       [ receipt_line r sender;
         {| levelname := INFO; message := "Forwarded to backend: 500" |} ] /\
     error_records (log (trace_of r req)) = []).
Proof.
  intros Hform Hfrom Hne Hcalls. split.
  - intros msg Hback. revert Hcalls.
    destruct r; handler_cases; intros Hcalls; the_call Hcalls;
      first [ congruence | idtac ].
    all: match goal with
         | H1 : ?b ?c = Raises ?x, H2 : ?b ?c = Raises ?y |- _ =>
             assert (x = y) as -> by congruence
         end; split; [| split]; reflexivity.
  - intros resp Hback Hcode. revert Hcalls.
    destruct r; handler_cases; intros Hcalls; the_call Hcalls;
      first [ congruence | idtac ].
    all: rewrite Hcode in *;
      first [ discriminate | split; [| split]; reflexivity ].
Qed.

(** C5: with a non-empty sender and no downstream base URL (unset, or set
    to the empty string), no outbound call is issued and the answer is
    the empty acknowledgment. *)
Theorem no_backend_no_call
    (r : route) (req : Request) (fm : gmap string string) (sender : string) :
  form req = Returns fm -> fm !! "From" = Some sender -> sender <> "" ->
  LOCAL_BACKEND_URL = None \/ LOCAL_BACKEND_URL = Some "" ->
  calls (trace_of r req) = [] /\ response_of r req = Returns empty_ack.
Proof.
  intros Hform Hfrom Hne Hurl.
  assert (Hunset : backend_url_set = false)
    by (unfold backend_url_set; destruct Hurl as [-> | ->]; reflexivity).
  destruct r; handler_cases; first [ congruence | split; reflexivity ].
Qed.

(** C6 (the code at the failing input): a request without a From field
    is answered with status 200, which is no client error. *)
Theorem missing_sender_answered_200 (r : route) :
  exists resp, response_of r {| form := Returns ∅ |} = Returns resp /\
    status resp = 200 /\ ~ (400 <= status resp < 500).
Proof.
  exists empty_ack. split; [| split; [reflexivity | cbn; lia]].
  destruct r; reflexivity.
Qed.

(** C7: a request whose form has no From field, or an empty one, is
    still answered, and with the empty acknowledgment. *)
Theorem missing_sender_acknowledged
    (r : route) (req : Request) (fm : gmap string string) :
  form req = Returns fm ->
  fm !! "From" = None \/ fm !! "From" = Some "" ->
  response_of r req = Returns empty_ack /\
  content empty_ack = xml_decl +:+ "<Response></Response>".
Proof.
  intros Hform [Hfrom | Hfrom]; (split; [| reflexivity]);
    destruct r; handler_cases; reflexivity.
Qed.

(** Every call in the trace of a run, brought to the form [c = ...]. *)
Ltac the_calls H :=
  first [ apply elem_of_nil in H; destruct H
        | apply list_elem_of_singleton in H; subst ].

(** C8: the channel field of a forwarded envelope is the route's own
    channel name, whatever the form holds. *)
Theorem channel_fixed_by_route
    (r : route) (req : Request) (fm : gmap string string) (sender : string)
    (c : call) :
  form req = Returns fm -> fm !! "From" = Some sender -> sender <> "" ->
  c ∈ calls (trace_of r req) ->
  call_json c !! "channel" = Some (JStr (channel_name r)).
Proof.
  intros Hform Hfrom Hne Hin. revert Hin.
  destruct r; handler_cases; intros Hin; the_calls Hin;
    cbn [call_json channel_name].
  all: first [ apply lookup_insert_eq
             | rewrite lookup_insert_ne by discriminate; apply lookup_insert_eq ].
Qed.

(** C10: the envelope forwarded by the SMS route has no media_url key;
    the one forwarded by the WhatsApp route has it, holding the form's
    MediaUrl0 when present and null otherwise; on both routes the
    content field is the form's Body when present and non-empty, and
    the empty string otherwise. *)
Theorem envelope_media_and_content
    (r : route) (req : Request) (fm : gmap string string) (c : call) :
  form req = Returns fm ->
  c ∈ calls (trace_of r req) ->
  call_json c !! "media_url" =
    match r with
    | twilio_sms => None
    | twilio_whatsapp =>
        Some (match fm !! "MediaUrl0" with
              | Some u => JStr u
              | None => JNull
              end)
    end /\
  call_json c !! "content" =
    Some (JStr (match fm !! "Body" with
                | Some (String a s) => String a s
                | Some EmptyString | None => ""
                end)).
Proof.
  intros Hform Hin. revert Hin.
  destruct r; handler_cases; intros Hin; the_calls Hin; cbn [call_json].
  all: split;
    [ first [ apply lookup_insert_eq
            | repeat (rewrite lookup_insert_ne by discriminate);
              apply lookup_empty ]
    | repeat (rewrite lookup_insert_ne by discriminate);
      rewrite lookup_insert_eq;
      destruct (fm !! "Body") as [[| a' s'] |]; reflexivity ].
Qed.

(** ** Further properties of the handlers *)

(** Two facts about the body of one reply, merged. *)
Ltac same_body :=
  match goal with
  | H1 : json_body ?a = _, H2 : json_body ?a = _ |- _ =>
      rewrite H2 in H1; first [ discriminate H1 | injection H1 as H1; subst ]
  end.

Lemma message_not_empty (text : string) : message_twiml text <> empty_twiml.
Proof. cbv. intros H. discriminate H. Qed.

(** X1: a run issues at most one outbound call; it goes to the
    downstream base URL followed by /api/messages/ingest, on a client
    with timeout 30. *)
Theorem outbound_call_shape (r : route) (req : Request) (c : call) :
  c ∈ calls (trace_of r req) ->
  calls (trace_of r req) = [c] /\
  call_url c = backend_url_str +:+ "/api/messages/ingest" /\
  call_timeout c = 30.
Proof.
  intros Hin. revert Hin.
  destruct r; handler_cases; intros Hin; the_calls Hin;
    (split; [reflexivity | split; reflexivity]).
Qed.

(** X2: the forwarded envelope has exactly the keys sender, content and
    channel, and on the WhatsApp route media_url as well; its sender is
    the form's From field. *)
Theorem envelope_keys_and_sender
    (r : route) (req : Request) (fm : gmap string string) (c : call) :
  form req = Returns fm ->
  c ∈ calls (trace_of r req) ->
  dom (call_json c) =
    match r with
    | twilio_whatsapp => {[ "sender"; "content"; "channel"; "media_url" ]}
    | twilio_sms => {[ "sender"; "content"; "channel" ]}
    end /\
  call_json c !! "sender" = JStr <$> fm !! "From".
Proof.
  intros Hform Hin. revert Hin.
  destruct r; handler_cases; intros Hin; the_calls Hin; cbn [call_json].
  all: split;
    [ rewrite !dom_insert_L, dom_empty_L; set_solver
    | repeat (rewrite lookup_insert_ne by discriminate);
      rewrite lookup_insert_eq; reflexivity ].
Qed.

(** X3: a request is forwarded exactly when its form parses, its From
    field is non-empty and the downstream base URL is set and non-empty. *)
Theorem forwarded_iff (r : route) (req : Request) :
  calls (trace_of r req) <> [] <->
  exists fm s, form req = Returns fm /\ fm !! "From" = Some s /\ s <> "" /\
               backend_url_set = true.
Proof.
  split.
  - destruct r; handler_cases; intros Hcalls; try congruence.
    all: eexists _, _; (split; [reflexivity |]); (split; [eassumption |]);
      (split; [discriminate | reflexivity]).
  - intros (fm & s & Hform & Hfrom & Hne & Hset).
    destruct r; handler_cases; first [ congruence | discriminate ].
Qed.

(** X4: whatever status other than 200 the downstream service returns,
    the answer is the empty acknowledgment, the reply's body is not read,
    and the log is the receipt line followed by the line that reports
    the status. *)
Theorem other_status_acknowledged
    (r : route) (req : Request) (fm : gmap string string) (sender : string)
    (c : call) (resp : BackendResponse) :
  form req = Returns fm -> fm !! "From" = Some sender ->
  calls (trace_of r req) = [c] ->
  backend c = Returns resp -> status_code resp <> 200 ->
  response_of r req = Returns empty_ack /\
  log (trace_of r req) =
    [ receipt_line r sender;
      {| levelname := INFO;
         message := "Forwarded to backend: " +:+ str_int (status_code resp) |} ].
Proof.
  intros Hform Hfrom Hcalls Hback Hcode. revert Hcalls.
  destruct r; handler_cases; intros Hcalls; the_call Hcalls;
    first [ congruence | idtac ].
  all: first [ split; reflexivity
             | match goal with
               | H : Z.eqb _ 200 = true |- _ => apply Z.eqb_eq in H; congruence
               end ].
Qed.

(** X5: when [client.post] raises, whatever the exception, the answer is
    the empty acknowledgment and the log is the receipt line followed by
    one error record that carries the exception's text. *)
Theorem post_exception_acknowledged
    (r : route) (req : Request) (fm : gmap string string) (sender : string)
    (c : call) (e : exn) :
  form req = Returns fm -> fm !! "From" = Some sender ->
  calls (trace_of r req) = [c] ->
  backend c = Raises e ->
  response_of r req = Returns empty_ack /\
  log (trace_of r req) =
    [ receipt_line r sender;
      {| levelname := ERROR;
         message := log_name r +:+ " webhook error: " +:+ exc_str e |} ].
Proof.
  intros Hform Hfrom Hcalls Hback. revert Hcalls.
  destruct r; handler_cases; intros Hcalls; the_call Hcalls;
    first [ congruence | idtac ].
  all: match goal with
       | H1 : ?b ?c = Raises ?x, H2 : ?b ?c = Raises ?y |- _ =>
           assert (x = y) as -> by congruence
       end; split; reflexivity.
Qed.

(** X6: a reply other than the empty acknowledgment is only ever given
    when one call was made, the downstream service returned status 200
    with a JSON object, and the object's response field is truthy; the
    body is then the message markup around that value's text. *)
Theorem message_needs_200_reply
    (r : route) (req : Request) (answer : PlainTextResponse) :
  response_of r req = Returns answer ->
  content answer <> empty_twiml ->
  exists c resp d v,
    calls (trace_of r req) = [c] /\ backend c = Returns resp /\
    status_code resp = 200 /\ json_body resp = Returns (JDict d) /\
    d !! "response" = Some v /\ truthy v = true /\
    content answer = message_twiml (py_str v).
Proof.
  intros Hanswer Hcontent. revert Hanswer.
  destruct r; handler_cases; intros Hanswer;
    injection Hanswer as <-; cbn [content plain_text_response] in Hcontent;
    try congruence.
  all: match goal with
       | H : truthy match ?d !! "response" with _ => _ end = true |- _ =>
           destruct (d !! "response") as [v |] eqn:Hfield;
           cbn [truthy str_truthy] in H; [| discriminate H]
       end.
  all: eexists _, _, _, v; (split; [reflexivity |]); (split; [eassumption |]);
    (split; [apply Z.eqb_eq; assumption |]); (split; [eassumption |]);
    (split; [exact Hfield |]); (split; [assumption | reflexivity]).
Qed.

(** X7: when the downstream service returns status 200 with a body
    [response.json()] cannot decode, the answer is the empty
    acknowledgment, and the log holds the receipt line, the line for the
    status and one error record with the decoder's text. *)
Theorem undecodable_reply_acknowledged
    (r : route) (req : Request) (fm : gmap string string) (sender : string)
    (c : call) (resp : BackendResponse) (e : exn) :
  form req = Returns fm -> fm !! "From" = Some sender ->
  calls (trace_of r req) = [c] ->
  backend c = Returns resp -> status_code resp = 200 ->
  json_body resp = Raises e ->
  response_of r req = Returns empty_ack /\
  log (trace_of r req) =
    [ receipt_line r sender;
      {| levelname := INFO; message := "Forwarded to backend: 200" |};
      {| levelname := ERROR;
         message := log_name r +:+ " webhook error: " +:+ exc_str e |} ].
Proof.
  intros Hform Hfrom Hcalls Hback Hcode Hjson. revert Hcalls.
  destruct r; handler_cases; intros Hcalls; the_call Hcalls;
    first [ congruence | idtac ].
  all: rewrite Hcode in *; first [ discriminate | idtac ].
  all: match goal with
       | H1 : json_body ?a = Raises ?x, H2 : json_body ?a = Raises ?y |- _ =>
           assert (x = y) as -> by congruence
       end; split; reflexivity.
Qed.

(** X8: when the downstream service returns status 200 with JSON that is
    no object (a list, a string, a number, true, false or null), the
    answer is the empty acknowledgment, and the error record names the
    type that has no [get]. *)
Theorem non_object_reply_acknowledged
    (r : route) (req : Request) (fm : gmap string string) (sender : string)
    (c : call) (resp : BackendResponse) (j : json) :
  form req = Returns fm -> fm !! "From" = Some sender ->
  calls (trace_of r req) = [c] ->
  backend c = Returns resp -> status_code resp = 200 ->
  json_body resp = Returns j -> (forall d, j <> JDict d) ->
  response_of r req = Returns empty_ack /\
  log (trace_of r req) =
    [ receipt_line r sender;
      {| levelname := INFO; message := "Forwarded to backend: 200" |};
      {| levelname := ERROR;
         message := log_name r +:+ " webhook error: '" +:+ type_name j
                      +:+ "' object has no attribute 'get'" |} ].
Proof.
  intros Hform Hfrom Hcalls Hback Hcode Hjson Hshape. revert Hcalls.
  destruct r; handler_cases; intros Hcalls; the_call Hcalls;
    first [ congruence | idtac ].
  all: rewrite Hcode in *; first [ discriminate | idtac ].
  all: first [ split; reflexivity | exfalso; eapply Hshape; reflexivity ].
Qed.

(** X9: when the downstream service returns status 200 and the response
    field holds a truthy value that is no list and no object (a
    non-empty string, a non-zero number or true) and whose text holds no
    lone surrogate, the answer is the message markup around the text
    Python's str gives for it: the string itself, the digits of an int,
    the repr of a float, True. *)
Theorem truthy_reply_rendered
    (r : route) (req : Request) (c : call) (resp : BackendResponse)
    (d : gmap string json) (v : json) :
  calls (trace_of r req) = [c] ->
  backend c = Returns resp -> status_code resp = 200 ->
  json_body resp = Returns (JDict d) ->
  d !! "response" = Some v -> truthy v = true ->
  is_container v = false -> has_surrogate (py_str v) = false ->
  response_of r req =
    Returns {| content := message_twiml (py_str v);
               media_type := "application/xml"; status := 200 |}.
Proof.
  intros Hcalls Hback Hcode Hjson Hfield Htruthy Hscalar Hencodes.
  revert Hcalls.
  destruct r; handler_cases; intros Hcalls; the_call Hcalls;
    first [ congruence | idtac ].
  all: rewrite Hcode in *; first [ discriminate | idtac ].
  all: same_body.
  all: rewrite Hfield in *; rewrite ?has_surrogate_message in *;
    first [ reflexivity | congruence ].
Qed.

(** X10: when the downstream service returns status 200 and the response
    field holds a falsy value (null, false, 0, an empty string, list or
    object), the answer is the empty acknowledgment and nothing but the
    receipt and the status is logged. *)
Theorem falsy_reply_acknowledged
    (r : route) (req : Request) (fm : gmap string string) (sender : string)
    (c : call) (resp : BackendResponse) (d : gmap string json) (v : json) :
  form req = Returns fm -> fm !! "From" = Some sender ->
  calls (trace_of r req) = [c] ->
  backend c = Returns resp -> status_code resp = 200 ->
  json_body resp = Returns (JDict d) ->
  d !! "response" = Some v -> truthy v = false ->
  response_of r req = Returns empty_ack /\
  log (trace_of r req) =
    [ receipt_line r sender;
      {| levelname := INFO; message := "Forwarded to backend: 200" |} ].
Proof.
  intros Hform Hfrom Hcalls Hback Hcode Hjson Hfield Hfalsy. revert Hcalls.
  destruct r; handler_cases; intros Hcalls; the_call Hcalls;
    first [ congruence | idtac ].
  all: rewrite Hcode in *; first [ discriminate | idtac ].
  all: same_body.
  all: rewrite Hfield in *; first [ split; reflexivity | congruence ].
Qed.

(** X11: when [request.form()] raises, the answer is the empty
    acknowledgment, the only log record is the error line, and nothing is
    forwarded. *)
Theorem form_failure_acknowledged (r : route) (req : Request) (e : exn) :
  form req = Raises e ->
  response_of r req = Returns empty_ack /\
  trace_of r req =
    {| log := [ {| levelname := ERROR;
                   message := log_name r +:+ " webhook error: " +:+ exc_str e |} ];
       calls := [] |}.
Proof.
  intros Hform. destruct r; handler_cases; split; reflexivity.
Qed.

(** X12: a request without a sender is not forwarded, even with a
    downstream base URL; the log is the receipt line, with no sender in
    it, followed by the error record of the client error raised. *)
Theorem missing_sender_not_forwarded
    (r : route) (req : Request) (fm : gmap string string) :
  form req = Returns fm ->
  fm !! "From" = None \/ fm !! "From" = Some "" ->
  trace_of r req =
    {| log := [ receipt_line r "";
                {| levelname := ERROR;
                   message := log_name r +:+ " webhook error: "
                                +:+ exc_str (HTTPException 400 "Missing sender") |} ];
       calls := [] |}.
Proof.
  intros Hform [Hfrom | Hfrom]; destruct r; handler_cases; reflexivity.
Qed.

(** Without a downstream base URL every request is acknowledged and
    none is forwarded. *)
Lemma unset_acknowledges (r : route) (req : Request) :
  backend_url_set = false ->
  calls (trace_of r req) = [] /\ response_of r req = Returns empty_ack.
Proof.
  intros Hunset. destruct r; handler_cases; split; reflexivity.
Qed.

(** With one, a request that names its sender is forwarded. *)
Lemma set_forwards (r : route) :
  backend_url_set = true ->
  calls (trace_of r {| form := Returns (<["From" := "+1"]> ∅) |}) <> [].
Proof.
  intros Hset.
  assert (Hfrom : (<["From" := "+1"]> ∅ : gmap string string) !! "From" = Some "+1")
    by apply lookup_insert_eq.
  destruct r; run_handler; cbn [form] in *; handler_cases;
    first [ discriminate | congruence ].
Qed.

Lemma never_forwards_iff :
  (forall r req, calls (trace_of r req) = []) <-> backend_url_set = false.
Proof.
  split.
  - intros Hnone. destruct backend_url_set eqn:Hset; [| reflexivity].
    exfalso. apply (set_forwards twilio_sms Hset). apply Hnone.
  - intros Hunset r req. apply unset_acknowledges. exact Hunset.
Qed.

(** X13: when [GET /] reports backend_configured false, every webhook
    request is answered with the empty acknowledgment and none is
    forwarded. *)
Theorem root_unconfigured_never_forwards (r : route) (req : Request) :
  root !! "backend_configured" = Some (JBool false) ->
  calls (trace_of r req) = [] /\ response_of r req = Returns empty_ack.
Proof.
  unfold root. rewrite lookup_insert_eq. intros Hroot.
  apply unset_acknowledges. unfold backend_url_set.
  destruct LOCAL_BACKEND_URL; [discriminate Hroot | reflexivity].
Qed.

(** X14: [GET /] reports backend_configured true while no request is
    ever forwarded in exactly one case: the downstream base URL is set
    to the empty string. *)
Theorem root_configured_but_idle_iff :
  (root !! "backend_configured" = Some (JBool true) /\
   forall r req, calls (trace_of r req) = []) <->
  LOCAL_BACKEND_URL = Some "".
Proof.
  unfold root. rewrite lookup_insert_eq, never_forwards_iff.
  unfold backend_url_set.
  destruct LOCAL_BACKEND_URL as [[| a u] |]; cbn [str_truthy]; split;
    first [ intros [? ?]; congruence | intros ?; split; congruence ].
Qed.

(** X16: of the form a handler reads the From and Body fields, absent
    ones as empty, and on the WhatsApp route the MediaUrl0 field; two
    forms that agree on these are served alike. *)
Theorem only_three_fields_read
    (r : route) (fm1 fm2 : gmap string string) (t : trace) :
  default "" (fm1 !! "From") = default "" (fm2 !! "From") ->
  default "" (fm1 !! "Body") = default "" (fm2 !! "Body") ->
  (r = twilio_whatsapp -> fm1 !! "MediaUrl0" = fm2 !! "MediaUrl0") ->
  app_post r {| form := Returns fm1 |} t = app_post r {| form := Returns fm2 |} t.
Proof.
  intros Hfrom Hbody Hmedia.
  destruct r;
    cbv beta iota zeta delta
      [app_post whatsapp_webhook sms_webhook try_except mbind M_bind lift];
    cbn [form].
  - rewrite Hfrom, Hbody, (Hmedia eq_refl). reflexivity.
  - rewrite Hfrom, Hbody. reflexivity.
Qed.

(** X17: when the downstream service returns status 200 and the
    response field is a string that holds a lone surrogate, building the
    response raises UnicodeEncodeError inside the try: the answer is the
    empty acknowledgment, and the log holds the receipt line, the line
    for the status and one error record with the encoder's text. *)
Theorem unencodable_reply_acknowledged
    (r : route) (req : Request) (fm : gmap string string) (sender : string)
    (c : call) (resp : BackendResponse) (d : gmap string json) (T : string) :
  form req = Returns fm -> fm !! "From" = Some sender ->
  calls (trace_of r req) = [c] ->
  backend c = Returns resp -> status_code resp = 200 ->
  json_body resp = Returns (JDict d) ->
  d !! "response" = Some (JStr T) -> has_surrogate T = true ->
  response_of r req = Returns empty_ack /\
  log (trace_of r req) =
    [ receipt_line r sender;
      {| levelname := INFO; message := "Forwarded to backend: 200" |};
      {| levelname := ERROR;
         message := log_name r +:+ " webhook error: "
                      +:+ surrogates_not_allowed (message_twiml T) |} ].
Proof.
  intros Hform Hfrom Hcalls Hback Hcode Hjson Hfield Hsurrogate.
  revert Hcalls.
  destruct r; handler_cases; intros Hcalls; the_call Hcalls;
    first [ congruence | idtac ].
  all: rewrite Hcode in *; first [ discriminate | idtac ].
  all: same_body.
  all: rewrite Hfield in *; tidy; cbn [py_str] in *;
    rewrite ?has_surrogate_message in *.
  all: first [ match goal with
               | H : has_surrogate ?x = false, H' : has_surrogate ?x = true |- _ =>
                   rewrite H' in H; discriminate H
               | H : str_truthy ?x = false, H' : has_surrogate ?x = true |- _ =>
                   apply str_truthy_false in H; rewrite H in H'; discriminate H'
               end
             | cbn [exc_str];
               match goal with
               | |- context [surrogates_not_allowed ?x] =>
                   generalize (surrogates_not_allowed x)
               end;
               intros text; split; reflexivity ].
Qed.

End Gateway.

(** X15: the module logs its warning at start-up exactly when no
    request will ever be forwarded: when LOCAL_BACKEND_URL is missing
    from the environment or empty. *)
Theorem startup_warning_iff_never_forwards
    (py_repr : json -> string) (backend : call -> outcome BackendResponse)
    (environ : gmap string string) :
  startup_log (os_getenv environ "LOCAL_BACKEND_URL") =
    [ {| levelname := WARNING;
         message := "LOCAL_BACKEND_URL not set - gateway will not forward messages" |} ]
  <->
  (forall r req,
     calls (trace_of py_repr (os_getenv environ "LOCAL_BACKEND_URL") backend r req) = []).
Proof.
  rewrite never_forwards_iff. unfold startup_log.
  destruct (backend_url_set (os_getenv environ "LOCAL_BACKEND_URL"));
    cbn [negb]; split; intros H; first [ reflexivity | discriminate H ].
Qed.

(** ** The properties at sample inputs *)

Lemma sender_present_status_200_xml_witness :
  exists resp,
    response_of Demo.repr Demo.url (Demo.answering (Raises (ConnectError "refused")))
      twilio_sms Demo.req = Returns resp /\
    status resp = 200 /\ media_type resp = "application/xml".
Proof.
  apply (sender_present_status_200_xml Demo.repr Demo.url _ twilio_sms Demo.req
           Demo.fields Demo.sender).
  - reflexivity.
  - vm_compute. reflexivity.
  - discriminate.
Defined.

(** C2 as stated fails: a reply with status 201, a success status, and
    the response text Hello is answered with the empty acknowledgment. *)
Lemma created_reply_not_rendered :
  success_status (status_code (Demo.reply 201 Demo.hello)) = true /\
  json_body (Demo.reply 201 Demo.hello) = Returns Demo.hello /\
  response_field Demo.hello = Some (JStr "Hello") /\
  (exists c,
     calls (trace_of Demo.repr Demo.url Demo.created twilio_whatsapp Demo.req) = [c] /\
     Demo.created c = Returns (Demo.reply 201 Demo.hello)) /\
  response_of Demo.repr Demo.url Demo.created twilio_whatsapp Demo.req
    = Returns empty_ack /\
  content empty_ack <> message_twiml "Hello".
Proof.
  split; [reflexivity |]. split; [reflexivity |].
  split; [vm_compute; reflexivity |].
  split; [eexists; split; reflexivity |].
  split; [reflexivity |].
  vm_compute. discriminate.
Defined.

(** The round trip of the spec: the reply {response: Hello} with status
    200 comes back as the Hello message markup. *)
Lemma hello_round_trip :
  response_of Demo.repr Demo.url (Demo.answering (Returns (Demo.reply 200 Demo.hello)))
    twilio_whatsapp Demo.req =
  Returns {| content := "<?xml version=" +:+ dq +:+ "1.0" +:+ dq +:+ " encoding="
                          +:+ dq +:+ "UTF-8" +:+ dq +:+ "?>"
                          +:+ "<Response><Message>Hello</Message></Response>";
             media_type := "application/xml";
             status := 200 |}.
Proof.
  eapply (reply_text_rendered_verbatim Demo.repr Demo.url _ twilio_whatsapp Demo.req
            Demo.fields Demo.sender _ (Demo.reply 200 Demo.hello)
            Demo.hello "Hello").
  - reflexivity.
  - vm_compute. reflexivity.
  - discriminate.
  - reflexivity.
  - reflexivity.
  - reflexivity.
  - reflexivity.
  - vm_compute. reflexivity.
  - discriminate.
  - reflexivity.
Defined.

Lemma empty_reply_acknowledged_witness :
  response_of Demo.repr Demo.url
    (Demo.answering (Returns (Demo.reply 200 (JDict ∅)))) twilio_sms Demo.req
    = Returns empty_ack /\
  content empty_ack = xml_decl +:+ "<Response></Response>".
Proof.
  eapply (empty_reply_acknowledged Demo.repr Demo.url _ twilio_sms Demo.req
            Demo.fields Demo.sender _ (Demo.reply 200 (JDict ∅)) (JDict ∅)).
  - reflexivity.
  - vm_compute. reflexivity.
  - discriminate.
  - reflexivity.
  - reflexivity.
  - reflexivity.
  - reflexivity.
  - right. vm_compute. reflexivity.
Defined.

(** C4 as stated fails at status 500: the handler's logger writes no
    failure record, only the line with the status, which it writes in
    the same way for a reply with status 200. *)
Lemma status_500_writes_no_failure_record :
  (exists c,
     calls (trace_of Demo.repr Demo.url Sample.failing twilio_whatsapp Demo.req) = [c] /\
     Sample.failing c = Returns (Demo.reply 500 Demo.hello)) /\
  status_code (Demo.reply 500 Demo.hello) = 500 /\
  log (trace_of Demo.repr Demo.url Sample.failing twilio_whatsapp Demo.req) =
    [ {| levelname := INFO; message := "WhatsApp message from whatsapp:+15550100" |};
      {| levelname := INFO; message := "Forwarded to backend: 500" |} ] /\
  log (trace_of Demo.repr Demo.url Sample.empty_object twilio_whatsapp Demo.req) =
    [ {| levelname := INFO; message := "WhatsApp message from whatsapp:+15550100" |};
      {| levelname := INFO; message := "Forwarded to backend: 200" |} ] /\
  length (error_records
            (log (trace_of Demo.repr Demo.url Sample.failing twilio_whatsapp Demo.req)))
    <> 1%nat.
Proof.
  split; [eexists; split; reflexivity |].
  split; [reflexivity |].
  split; [reflexivity |].
  split; [reflexivity |].
  vm_compute. discriminate.
Defined.

Lemma timeout_logged_once_status_500_routine_witness :
  (response_of Demo.repr Demo.url Demo.timing_out twilio_sms Demo.req
     = Returns empty_ack /\
   log (trace_of Demo.repr Demo.url Demo.timing_out twilio_sms Demo.req) =
     [ {| levelname := INFO; message := "SMS message from whatsapp:+15550100" |};
       {| levelname := ERROR; message := "SMS webhook error: timed out" |} ] /\
   length (error_records
             (log (trace_of Demo.repr Demo.url Demo.timing_out twilio_sms Demo.req)))
     = 1%nat) /\
  (response_of Demo.repr Demo.url Sample.failing twilio_whatsapp Demo.req
     = Returns empty_ack /\
   log (trace_of Demo.repr Demo.url Sample.failing twilio_whatsapp Demo.req) =
     [ {| levelname := INFO; message := "WhatsApp message from whatsapp:+15550100" |};
       {| levelname := INFO; message := "Forwarded to backend: 500" |} ] /\
   error_records
     (log (trace_of Demo.repr Demo.url Sample.failing twilio_whatsapp Demo.req)) = []).
Proof.
  split.
  - edestruct (timeout_logged_once_status_500_routine Demo.repr Demo.url
                 Demo.timing_out twilio_sms Demo.req Demo.fields Demo.sender)
      as [Htimeout _];
      [ reflexivity | vm_compute; reflexivity | discriminate | reflexivity |].
    apply (Htimeout "timed out"). reflexivity.
  - edestruct (timeout_logged_once_status_500_routine Demo.repr Demo.url
                 Sample.failing twilio_whatsapp Demo.req Demo.fields Demo.sender)
      as [_ Hstatus];
      [ reflexivity | vm_compute; reflexivity | discriminate | reflexivity |].
    apply (Hstatus (Demo.reply 500 Demo.hello)); reflexivity.
Defined.

Lemma no_backend_no_call_witness :
  calls (trace_of Demo.repr None Demo.timing_out twilio_whatsapp Demo.req) = [] /\
  response_of Demo.repr None Demo.timing_out twilio_whatsapp Demo.req
    = Returns empty_ack.
Proof.
  apply (no_backend_no_call Demo.repr None Demo.timing_out twilio_whatsapp
           Demo.req Demo.fields Demo.sender).
  - reflexivity.
  - vm_compute. reflexivity.
  - discriminate.
  - left. reflexivity.
Defined.

Lemma missing_sender_acknowledged_witness :
  response_of Demo.repr Demo.url Demo.created twilio_sms
    {| form := Returns Demo.no_sender |} = Returns empty_ack /\
  content empty_ack = xml_decl +:+ "<Response></Response>".
Proof.
  apply (missing_sender_acknowledged Demo.repr Demo.url Demo.created twilio_sms
           {| form := Returns Demo.no_sender |} Demo.no_sender).
  - reflexivity.
  - left. vm_compute. reflexivity.
Defined.

Lemma channel_fixed_by_route_witness :
  exists c,
    calls (trace_of Demo.repr Demo.url Demo.created twilio_sms Demo.req) = [c] /\
    call_json c !! "channel" = Some (JStr "sms").
Proof.
  eexists. split; [reflexivity |].
  apply (channel_fixed_by_route Demo.repr Demo.url Demo.created twilio_sms
           Demo.req Demo.fields Demo.sender).
  - reflexivity.
  - vm_compute. reflexivity.
  - discriminate.
  - apply list_elem_of_singleton. reflexivity.
Defined.

Lemma envelope_media_and_content_witness :
  exists c,
    calls (trace_of Demo.repr Demo.url Demo.created twilio_sms Demo.req) = [c] /\
    call_json c !! "media_url" = None /\
    call_json c !! "content" = Some (JStr "hi").
Proof.
  eexists. split; [reflexivity |].
  apply (envelope_media_and_content Demo.repr Demo.url Demo.created twilio_sms
           Demo.req Demo.fields).
  - reflexivity.
  - apply list_elem_of_singleton. reflexivity.
Defined.

(** ** The further properties at sample inputs *)

Lemma outbound_call_shape_witness :
  exists c,
    calls (trace_of Demo.repr Demo.url Demo.created twilio_sms Demo.req) = [c] /\
    call_url c = "http://localhost:8000/api/messages/ingest" /\
    call_timeout c = 30.
Proof.
  eexists.
  apply (outbound_call_shape Demo.repr Demo.url Demo.created twilio_sms Demo.req).
  apply list_elem_of_singleton. reflexivity.
Defined.

Lemma envelope_keys_and_sender_witness :
  exists c,
    calls (trace_of Demo.repr Demo.url Demo.created twilio_whatsapp Demo.req) = [c] /\
    dom (call_json c) = {[ "sender"; "content"; "channel"; "media_url" ]} /\
    call_json c !! "sender" = JStr <$> Demo.fields !! "From".
Proof.
  eexists. split; [reflexivity |].
  apply (envelope_keys_and_sender Demo.repr Demo.url Demo.created twilio_whatsapp
           Demo.req Demo.fields).
  - reflexivity.
  - apply list_elem_of_singleton. reflexivity.
Defined.

Lemma other_status_acknowledged_witness :
  response_of Demo.repr Demo.url Sample.not_found twilio_whatsapp Demo.req
    = Returns empty_ack /\
  log (trace_of Demo.repr Demo.url Sample.not_found twilio_whatsapp Demo.req) =
    [ {| levelname := INFO; message := "WhatsApp message from whatsapp:+15550100" |};
      {| levelname := INFO; message := "Forwarded to backend: 404" |} ].
Proof.
  eapply (other_status_acknowledged Demo.repr Demo.url Sample.not_found
            twilio_whatsapp Demo.req Demo.fields Demo.sender _
            (Demo.reply 404 Demo.hello)).
  - reflexivity.
  - vm_compute. reflexivity.
  - reflexivity.
  - reflexivity.
  - discriminate.
Defined.

Lemma post_exception_acknowledged_witness :
  response_of Demo.repr Demo.url Sample.refusing twilio_sms Demo.req
    = Returns empty_ack /\
  log (trace_of Demo.repr Demo.url Sample.refusing twilio_sms Demo.req) =
    [ {| levelname := INFO; message := "SMS message from whatsapp:+15550100" |};
      {| levelname := ERROR;
         message := "SMS webhook error: All connection attempts failed" |} ].
Proof.
  eapply (post_exception_acknowledged Demo.repr Demo.url Sample.refusing
            twilio_sms Demo.req Demo.fields Demo.sender _
            (ConnectError "All connection attempts failed")).
  - reflexivity.
  - vm_compute. reflexivity.
  - reflexivity.
  - reflexivity.
Defined.

Lemma message_needs_200_reply_witness :
  exists c resp d v,
    calls (trace_of Demo.repr Demo.url
             (Demo.answering (Returns (Demo.reply 200 Demo.hello)))
             twilio_sms Demo.req) = [c] /\
    Demo.answering (Returns (Demo.reply 200 Demo.hello)) c = Returns resp /\
    status_code resp = 200 /\ json_body resp = Returns (JDict d) /\
    d !! "response" = Some v /\ truthy v = true /\
    content Sample.hello_reply = message_twiml (py_str Demo.repr v).
Proof.
  apply (message_needs_200_reply Demo.repr Demo.url
           (Demo.answering (Returns (Demo.reply 200 Demo.hello)))
           twilio_sms Demo.req Sample.hello_reply).
  - vm_compute. reflexivity.
  - vm_compute. discriminate.
Defined.

Lemma undecodable_reply_acknowledged_witness :
  response_of Demo.repr Demo.url Sample.garbled twilio_sms Demo.req
    = Returns empty_ack /\
  log (trace_of Demo.repr Demo.url Sample.garbled twilio_sms Demo.req) =
    [ {| levelname := INFO; message := "SMS message from whatsapp:+15550100" |};
      {| levelname := INFO; message := "Forwarded to backend: 200" |};
      {| levelname := ERROR; message := "SMS webhook error: Expecting value" |} ].
Proof.
  eapply (undecodable_reply_acknowledged Demo.repr Demo.url Sample.garbled
            twilio_sms Demo.req Demo.fields Demo.sender _ _
            (JSONDecodeError "Expecting value")).
  - reflexivity.
  - vm_compute. reflexivity.
  - reflexivity.
  - reflexivity.
  - reflexivity.
  - reflexivity.
Defined.

Lemma non_object_reply_acknowledged_witness :
  response_of Demo.repr Demo.url
    (Demo.answering (Returns (Demo.reply 200 (JList [])))) twilio_whatsapp Demo.req
    = Returns empty_ack /\
  log (trace_of Demo.repr Demo.url
         (Demo.answering (Returns (Demo.reply 200 (JList []))))
         twilio_whatsapp Demo.req) =
    [ {| levelname := INFO; message := "WhatsApp message from whatsapp:+15550100" |};
      {| levelname := INFO; message := "Forwarded to backend: 200" |};
      {| levelname := ERROR;
         message := "WhatsApp webhook error: 'list' object has no attribute 'get'" |} ].
Proof.
  eapply (non_object_reply_acknowledged Demo.repr Demo.url _ twilio_whatsapp
            Demo.req Demo.fields Demo.sender _ (Demo.reply 200 (JList []))
            (JList [])).
  - reflexivity.
  - vm_compute. reflexivity.
  - reflexivity.
  - reflexivity.
  - reflexivity.
  - reflexivity.
  - intros d. discriminate.
Defined.

Lemma truthy_reply_rendered_witness :
  response_of Demo.repr Demo.url
    (Demo.answering (Returns (Demo.reply 200 Sample.number))) twilio_sms Demo.req
  = Returns {| content := message_twiml "42";
               media_type := "application/xml"; status := 200 |}.
Proof.
  eapply (truthy_reply_rendered Demo.repr Demo.url _ twilio_sms Demo.req _
            (Demo.reply 200 Sample.number) _ (JInt 42)).
  - reflexivity.
  - reflexivity.
  - reflexivity.
  - reflexivity.
  - vm_compute. reflexivity.
  - reflexivity.
  - reflexivity.
  - reflexivity.
Defined.

Lemma falsy_reply_acknowledged_witness :
  response_of Demo.repr Demo.url
    (Demo.answering (Returns (Demo.reply 200 Sample.null))) twilio_sms Demo.req
    = Returns empty_ack /\
  log (trace_of Demo.repr Demo.url
         (Demo.answering (Returns (Demo.reply 200 Sample.null))) twilio_sms Demo.req) =
    [ {| levelname := INFO; message := "SMS message from whatsapp:+15550100" |};
      {| levelname := INFO; message := "Forwarded to backend: 200" |} ].
Proof.
  eapply (falsy_reply_acknowledged Demo.repr Demo.url _ twilio_sms Demo.req
            Demo.fields Demo.sender _ (Demo.reply 200 Sample.null) _ JNull).
  - reflexivity.
  - vm_compute. reflexivity.
  - reflexivity.
  - reflexivity.
  - reflexivity.
  - reflexivity.
  - vm_compute. reflexivity.
  - reflexivity.
Defined.

Lemma form_failure_acknowledged_witness :
  response_of Demo.repr Demo.url Demo.created twilio_whatsapp Sample.broken_form
    = Returns empty_ack /\
  trace_of Demo.repr Demo.url Demo.created twilio_whatsapp Sample.broken_form =
    {| log := [ {| levelname := ERROR;
                   message := "WhatsApp webhook error: bad form" |} ];
       calls := [] |}.
Proof.
  apply (form_failure_acknowledged Demo.repr Demo.url Demo.created twilio_whatsapp
           Sample.broken_form (OtherException "bad form")).
  reflexivity.
Defined.

Lemma missing_sender_not_forwarded_witness :
  trace_of Demo.repr Demo.url Demo.created twilio_sms
    {| form := Returns Demo.no_sender |} =
    {| log := [ {| levelname := INFO; message := "SMS message from " |};
                {| levelname := ERROR;
                   message := "SMS webhook error: "
                                +:+ exc_str (HTTPException 400 "Missing sender") |} ];
       calls := [] |}.
Proof.
  apply (missing_sender_not_forwarded Demo.repr Demo.url Demo.created twilio_sms
           {| form := Returns Demo.no_sender |} Demo.no_sender).
  - reflexivity.
  - left. vm_compute. reflexivity.
Defined.

Lemma root_unconfigured_never_forwards_witness :
  calls (trace_of Demo.repr None Demo.created twilio_sms Demo.req) = [] /\
  response_of Demo.repr None Demo.created twilio_sms Demo.req = Returns empty_ack.
Proof.
  apply (root_unconfigured_never_forwards Demo.repr None Demo.created twilio_sms
           Demo.req).
  vm_compute. reflexivity.
Defined.

Lemma only_three_fields_read_witness :
  app_post Demo.repr Demo.url Demo.created twilio_whatsapp
    {| form := Returns Demo.fields |} no_trace =
  app_post Demo.repr Demo.url Demo.created twilio_whatsapp
    {| form := Returns Sample.fields_more |} no_trace.
Proof.
  apply (only_three_fields_read Demo.repr Demo.url Demo.created twilio_whatsapp
           Demo.fields Sample.fields_more no_trace).
  - vm_compute. reflexivity.
  - vm_compute. reflexivity.
  - intros _. vm_compute. reflexivity.
Defined.

Lemma unencodable_reply_acknowledged_witness :
  response_of Demo.repr Demo.url
    (Demo.answering (Returns (Demo.reply 200 Sample.surrogate_reply)))
    twilio_sms Demo.req = Returns empty_ack /\
  log (trace_of Demo.repr Demo.url
         (Demo.answering (Returns (Demo.reply 200 Sample.surrogate_reply)))
         twilio_sms Demo.req) =
    [ {| levelname := INFO; message := "SMS message from whatsapp:+15550100" |};
      {| levelname := INFO; message := "Forwarded to backend: 200" |};
      {| levelname := ERROR;
         message := "SMS webhook error: 'utf-8' codec can't encode character "
                      +:+ "'\ud800' in position 57: surrogates not allowed" |} ].
Proof.
  eapply (unencodable_reply_acknowledged Demo.repr Demo.url _ twilio_sms Demo.req
            Demo.fields Demo.sender _ (Demo.reply 200 Sample.surrogate_reply) _
            Sample.lone_surrogate).
  - reflexivity.
  - vm_compute. reflexivity.
  - reflexivity.
  - reflexivity.
  - reflexivity.
  - reflexivity.
  - vm_compute. reflexivity.
  - reflexivity.
Defined.
